(** * steganer: ci_scripts/ci_constants.py

    The module is a flat list of top-level assignments preceded by
    [import os]; one of the assignments calls [os.getenv].  Executing a
    Python module body runs its statements in order against the module's
    global namespace, so the body is embedded as a computation in a small
    state-and-exception monad:

    - the process environment ([os.environ]) is a finite map from variable
      names to values;
    - the module namespace is a finite map from names to Python values;
    - every access to the environment and every store into the namespace is
      logged, so that statements about "what the load does" can be made.  *)

From Stdlib Require Import Ascii String.
From stdpp Require Import gmap strings list fin_maps.

Open Scope string_scope.

(** ** Python values that occur in the module *)

Inductive value : Type :=
  | VStr (s : string)          (* a [str] object *)
  | VNone                      (* the [None] singleton *)
  | VModule (name : string)    (* an imported module object *)
  | VBuiltin (qualname : string). (* a callable, e.g. [os.getenv] *)

#[global] Instance value_eq_dec : EqDecision value.
Proof. solve_decision. Defined.

(** Callables are the only values through which a module could expose an
    operation to its clients. *)
Definition callable (v : value) : bool :=
  match v with
  | VBuiltin _ => true
  | _ => false
  end.

(** [os.getenv] returns either a [str] or its default, [None]. *)
Definition of_option (o : option string) : value :=
  match o with
  | Some s => VStr s
  | None => VNone
  end.

(** ** Exceptions, effects and machine state *)

Inductive exn : Type :=
  | NameError (name : string)
  | AttributeError (obj attr : string)
  | KeyError (key : string)
  | IndexError
  | ValueError (msg : string)
  | TypeError (msg : string)
  | Unsupported (what : string).   (* outside the modelled fragment *)

Inductive result (A : Type) : Type :=
  | Ok (a : A)
  | Raise (e : exn).
Arguments Ok {A} a.
Arguments Raise {A} e.

Inductive event : Type :=
  | EnvRead (key : string)                 (* lookup in [os.environ] *)
  | EnvWrite (key : string) (v : string)   (* [os.environ[key] = v] / putenv *)
  | EnvDelete (key : string)               (* [del os.environ[key]] *)
  | Import (name : string)                 (* [import name] *)
  | Store (name : string) (v : value).     (* [name = v] at module level *)

#[global] Instance event_eq_dec : EqDecision event.
Proof. solve_decision. Defined.

Record state : Type := mkState {
  environ : gmap string string;
  globals : gmap string value;
  trace : list event               (* oldest event first *)
}.

Definition Load (A : Type) : Type := state → result (A * state).

#[global] Instance Load_ret : MRet Load := λ A a st, Ok (a, st).

#[global] Instance Load_bind : MBind Load := λ A B k m st,
  match m st with
  | Ok (a, st') => k a st'
  | Raise e => Raise e
  end.

Definition raise {A} (e : exn) : Load A := λ _, Raise e.

(** ** The statements and expressions the module uses *)

(** [import name]: binds [name] to the module object.  The import
    machinery itself ([__import__] found through [__builtins__],
    [sys.modules]) is not modelled; statements over namespaces that a load
    did not produce assume it intact (see [builtins_intact]). *)
Definition import_ (name : string) : Load unit :=
  λ st, Ok (tt, mkState (environ st)
                        (<[name := VModule name]> (globals st))
                        (trace st ++ [Import name])).

(** [name = v] *)
Definition assign (name : string) (v : value) : Load unit :=
  λ st, Ok (tt, mkState (environ st)
                        (<[name := v]> (globals st))
                        (trace st ++ [Store name v])).

(** Evaluating a global name: [NameError] when it is unbound. *)
Definition load_name (name : string) : Load value :=
  λ st, match globals st !! name with
        | Some v => Ok (v, st)
        | None => Raise (NameError name)
        end.

(** Attribute access on a module object, for the one attribute used. *)
Definition getattr (obj : value) (attr : string) : Load value :=
  match obj with
  | VModule "os" =>
      if decide (attr = "getenv") then mret (VBuiltin "os.getenv")
      else raise (AttributeError "os" attr)
  | VModule m => raise (AttributeError m attr)
  | VStr _ => raise (AttributeError "str" attr)
  | VNone => raise (AttributeError "NoneType" attr)
  | VBuiltin q => raise (AttributeError q attr)
  end.

(** [os.getenv(key)] is [os.environ.get(key, None)]: a lookup that returns
    the stored value, or [None] when [key] is not set.  It writes nothing. *)
Definition os_getenv (key : string) : Load value :=
  λ st, Ok (of_option (environ st !! key),
            mkState (environ st) (globals st) (trace st ++ [EnvRead key])).

(** A call of a callable with one string argument. *)
Definition call1 (f : value) (arg : string) : Load value :=
  match f with
  | VBuiltin "os.getenv" => os_getenv arg
  | _ => raise (TypeError "object is not callable")
  end.

(** ** ci_constants.py, statement by statement *)

Definition ci_constants : Load unit :=
  import_ "os";;
  assign "BRANCH_TO_MERGE_INTO" (VStr "master");;
  assign "BRANCH_TO_MERGE" (VStr "staging");;
  assign "GITHUB_URL" (VStr "https://github.com/");;
  assign "GITHUB_REPO" (VStr "dante-signal31/steganer.git");;
  (os ← load_name "os";
   getenv ← getattr os "getenv";
   token ← call1 getenv "GITHUB_TOKEN";
   assign "GITHUB_TOKEN" token);;
  assign "GIT_USERNAME" (VStr "dante-signal31");;
  assign "GIT_EMAIL" (VStr "dante.signal31@gmail.com");;
  assign "STEGANER_CONFIGURATION" (VStr "Cargo.toml");;
  assign "VERSION_PREFIX" (VStr "");;
  assign "BINTRAY_TEMPLATES_PATH" (VStr "packaging/bintray_descriptor_templates");;
  assign "BINTRAY_DESCRIPTORS_PATH" (VStr "packaging/");;
  assign "BINTRAY_DESCRIPTOR_NAME_FORMAT" (VStr "steganer_{tag}_bintray_descriptor.json").

(** A first load: the body runs against an empty namespace.  The attributes
    Python itself gives every module ([__name__], [__builtins__], [__file__]
    and the like) are not modelled: the namespace holds what the body
    binds. *)
Definition fresh (env : gmap string string) : state := mkState env ∅ [].

Definition load (env : gmap string string) : result state :=
  match ci_constants (fresh env) with
  | Ok (_, st) => Ok st
  | Raise e => Raise e
  end.

(** [importlib.reload]: the body runs again in the namespace of the earlier
    load, against the environment as it is now; the log starts afresh. *)
Definition reload (env : gmap string string) (prev : state) : result state :=
  match ci_constants (mkState env (globals prev) []) with
  | Ok (_, st) => Ok st
  | Raise e => Raise e
  end.

(** Module attribute access by a client: [ci_constants.NAME]. *)
Definition constant (st : state) (name : string) : option value :=
  globals st !! name.

(** ** Filling the placeholder *)

(** Modelled from the spec: the caller that fills the [{tag}] placeholder of
    the filename format is not part of the module; the spec only says that
    the placeholder is "substituted with" a tag value by the calling
    process.  The substitution is taken to be Python's [str.format] called
    with keyword arguments, restricted to replacement fields that are plain
    names: [{{] and [}}] are escaped braces, [{name}] is replaced by the
    keyword argument [name], a lone brace is a [ValueError], an unknown name
    a [KeyError], and a positional field an [IndexError] (no positional
    argument is passed).  Conversions, format specifications, attribute and
    index lookups are outside the fragment. *)
Inductive piece : Type :=
  | Text (c : ascii)
  | Field (name : string).

Definition is_char (c d : ascii) : bool := Ascii.eqb c d.

Definition push (p : piece) (r : result (list piece)) : result (list piece) :=
  match r with
  | Ok ps => Ok (p :: ps)
  | Raise e => Raise e
  end.

(** [cur] is [Some f] while a replacement field is being read, [f] being
    the part of its name read so far. *)
Fixpoint parse_from (cur : option string) (s : string) : result (list piece) :=
  match s with
  | EmptyString =>
      match cur with
      | None => Ok []
      | Some _ => Raise (ValueError "expected '}' before end of string")
      end
  | String c r =>
      match cur with
      | None =>
          if is_char c "{" then
            match r with
            | EmptyString => Raise (ValueError "Single '{' encountered in format string")
            | String c' r' =>
                if is_char c' "{" then push (Text "{") (parse_from None r')
                else parse_from (Some "") r
            end
          else if is_char c "}" then
            match r with
            | EmptyString => Raise (ValueError "Single '}' encountered in format string")
            | String c' r' =>
                if is_char c' "}" then push (Text "}") (parse_from None r')
                else Raise (ValueError "Single '}' encountered in format string")
            end
          else push (Text c) (parse_from None r)
      | Some f =>
          if is_char c "}" then push (Field f) (parse_from None r)
          else if is_char c "{" then Raise (ValueError "unexpected '{' in field name")
          else if is_char c "!" || is_char c ":" || is_char c "." || is_char c "["
          then Raise (Unsupported "conversion, format spec, attribute or index")
          else parse_from (Some (f +:+ String c "")) r
      end
  end.

Definition parse (fmt : string) : result (list piece) := parse_from None fmt.

(** The names of the replacement fields of a format string, in order. *)
Definition fields (fmt : string) : result (list string) :=
  match parse fmt with
  | Ok ps => Ok (omap (λ p, match p with Field n => Some n | Text _ => None end) ps)
  | Raise e => Raise e
  end.

Definition is_digit (c : ascii) : bool :=
  let n := nat_of_ascii c in (48 <=? n)%nat && (n <=? 57)%nat.

Fixpoint all_digits (s : string) : bool :=
  match s with
  | EmptyString => true
  | String c r => is_digit c && all_digits r
  end.

Fixpoint render (kwargs : gmap string string) (ps : list piece) : result string :=
  match ps with
  | [] => Ok ""
  | Text c :: ps' =>
      match render kwargs ps' with
      | Ok out => Ok (String c out)
      | Raise e => Raise e
      end
  | Field n :: ps' =>
      if all_digits n then Raise IndexError
      else match kwargs !! n with
           | None => Raise (KeyError n)
           | Some v =>
               match render kwargs ps' with
               | Ok out => Ok (v +:+ out)
               | Raise e => Raise e
               end
           end
  end.

(** [fmt.format] with keyword arguments [kwargs] *)
Definition str_format (fmt : string) (kwargs : gmap string string) : result string :=
  match parse fmt with
  | Ok ps => render kwargs ps
  | Raise e => Raise e
  end.

(** Number of positions of [s] at which [pat] starts. *)
Fixpoint occurrences (pat s : string) : nat :=
  match s with
  | EmptyString => if String.prefix pat "" then 1 else 0
  | String _ r => (if String.prefix pat s then 1 else 0) + occurrences pat r
  end.

(** ** What one run of the body leaves behind *)

(** The stores of the body, in program order, for a given result of the
    environment lookup. *)
Definition bindings (token : value) : list (string * value) :=
  [ ("BRANCH_TO_MERGE_INTO", VStr "master");
    ("BRANCH_TO_MERGE", VStr "staging");
    ("GITHUB_URL", VStr "https://github.com/");
    ("GITHUB_REPO", VStr "dante-signal31/steganer.git");
    ("GITHUB_TOKEN", token);
    ("GIT_USERNAME", VStr "dante-signal31");
    ("GIT_EMAIL", VStr "dante.signal31@gmail.com");
    ("STEGANER_CONFIGURATION", VStr "Cargo.toml");
    ("VERSION_PREFIX", VStr "");
    ("BINTRAY_TEMPLATES_PATH", VStr "packaging/bintray_descriptor_templates");
    ("BINTRAY_DESCRIPTORS_PATH", VStr "packaging/");
    ("BINTRAY_DESCRIPTOR_NAME_FORMAT", VStr "steganer_{tag}_bintray_descriptor.json") ].

(** Later stores win, as in a sequence of assignments. *)
Definition store_all (bs : list (string * value)) (g : gmap string value)
  : gmap string value :=
  foldl (λ g b, <[b.1 := b.2]> g) g bs.

Definition body_globals (token : value) (g : gmap string value)
  : gmap string value :=
  store_all (bindings token) (<["os" := VModule "os"]> g).

Definition body_trace (token : value) : list event :=
  Import "os" ::
  take 4 (map (λ b, Store b.1 b.2) (bindings token)) ++
  EnvRead "GITHUB_TOKEN" ::
  drop 4 (map (λ b, Store b.1 b.2) (bindings token)).

(** ** Observations on a run *)

(** Events that reach outside the module's own namespace. *)
Definition touches_environ (e : event) : bool :=
  match e with
  | EnvRead _ | EnvWrite _ _ | EnvDelete _ => true
  | Import _ | Store _ _ => false
  end.

Definition env_events (tr : list event) : list event :=
  List.filter touches_environ tr.

(** The values stored under [name], oldest first. *)
Definition stores_of (name : string) (tr : list event) : list value :=
  omap (λ e, match e with
             | Store n v => if decide (n = name) then Some v else None
             | _ => None
             end) tr.

(** Reloading once per environment of [envs], in order. *)
Fixpoint reloads (envs : list (gmap string string)) (st : state) : result state :=
  match envs with
  | [] => Ok st
  | env :: envs' =>
      match reload env st with
      | Ok st' => reloads envs' st'
      | Raise e => Raise e
      end
  end.

(** Two sample environments that agree on the token and on nothing else,
    and one where the token is not set. *)
Definition env_ci : gmap string string :=
  {[ "GITHUB_TOKEN" := "abc123"; "HOME" := "/home/travis" ]}.

Definition env_dev : gmap string string :=
  {[ "GITHUB_TOKEN" := "abc123"; "PATH" := "/usr/bin"; "LANG" := "C" ]}.

Definition env_bare : gmap string string := {[ "HOME" := "/root" ]}.

(** The names the body assigns, in program order. *)
Definition assigned_names : list string := (bindings VNone).*1.

(** A namespace as outside code may have left it before a reload: one
    constant rebound, one attribute of Python's own added. *)
Definition tampered : state :=
  mkState env_ci
          {[ "GITHUB_URL" := VStr "https://example.org/";
             "__name__" := VStr "ci_constants" ]}
          [].

(** The twelve constants of the module, in the order of their assignments. *)
Definition constant_names : list string :=
  [ "BRANCH_TO_MERGE_INTO"; "BRANCH_TO_MERGE"; "GITHUB_URL"; "GITHUB_REPO";
    "GITHUB_TOKEN"; "GIT_USERNAME"; "GIT_EMAIL"; "STEGANER_CONFIGURATION";
    "VERSION_PREFIX"; "BINTRAY_TEMPLATES_PATH"; "BINTRAY_DESCRIPTORS_PATH";
    "BINTRAY_DESCRIPTOR_NAME_FORMAT" ].

(** A namespace leaves the import machinery alone when it does not rebind
    [__builtins__] (unbound here stands for Python's own binding), or binds
    it to the [builtins] module. *)
Definition builtins_intact (g : gmap string value) : Prop :=
  g !! "__builtins__" = None ∨ g !! "__builtins__" = Some (VModule "builtins").

(** Case analysis on a name known to be one of a literal list of names. *)
Ltac by_names H :=
  cbn in H;
  repeat (apply elem_of_cons in H as [-> | H]);
  [.. | by apply elem_of_nil in H].

(** ** Facts about one run of the body *)

Lemma ci_constants_run st :
  ci_constants st =
    Ok (tt, mkState (environ st)
                    (body_globals (of_option (environ st !! "GITHUB_TOKEN")) (globals st))
                    (trace st ++ body_trace (of_option (environ st !! "GITHUB_TOKEN")))).
Proof.
  destruct st as [env g tr].
  unfold ci_constants, mbind, Load_bind, import_, assign, load_name. simpl.
  rewrite !lookup_insert_ne by done. rewrite lookup_insert_eq. simpl.
  rewrite <- !app_assoc. reflexivity.
Qed.


Lemma load_run env :
  load env =
    Ok (mkState env (body_globals (of_option (env !! "GITHUB_TOKEN")) ∅)
                (body_trace (of_option (env !! "GITHUB_TOKEN")))).
Proof. unfold load. rewrite ci_constants_run. reflexivity. Qed.

Lemma reload_run env prev :
  reload env prev =
    Ok (mkState env (body_globals (of_option (env !! "GITHUB_TOKEN")) (globals prev))
                (body_trace (of_option (env !! "GITHUB_TOKEN")))).
Proof. unfold reload. rewrite ci_constants_run. reflexivity. Qed.

(** A sequence of stores is an overriding union with the map of its
    bindings, the last store of a name taking precedence. *)
Lemma store_all_union bs (g : gmap string value) :
  store_all bs g = list_to_map (reverse bs) ∪ g.
Proof.
  revert g. induction bs as [|[n v] bs IH]; intros g.
  - simpl. by rewrite (left_id_L ∅ (∪)).
  - unfold store_all in *. simpl. rewrite IH.
    rewrite reverse_cons, list_to_map_app. simpl.
    rewrite <- (assoc_L (∪)). f_equal.
    rewrite insert_union_singleton_l, insert_empty. reflexivity.
Qed.

Lemma body_globals_union token (g : gmap string value) :
  body_globals token g = body_globals token ∅ ∪ g.
Proof.
  unfold body_globals. rewrite !store_all_union.
  rewrite <- (assoc_L (∪)). f_equal.
  rewrite !insert_union_singleton_l. by rewrite (right_id_L ∅ (∪)).
Qed.

(** Running the body over its own result changes nothing. *)
Lemma body_globals_idem token (g : gmap string value) :
  body_globals token (body_globals token g) = body_globals token g.
Proof.
  rewrite (body_globals_union token (body_globals token g)).
  rewrite (body_globals_union token g).
  rewrite (assoc_L (∪)). by rewrite (idemp_L (∪)).
Qed.

(** What a client reads after a run, whatever the namespace held before. *)
Lemma body_globals_lookup token (g : gmap string value) name v :
  body_globals token ∅ !! name = Some v →
  body_globals token g !! name = Some v.
Proof.
  intros H. rewrite body_globals_union. by apply lookup_union_Some_l.
Qed.

(** ** The token constant *)

(** C1: whatever the environment, the load succeeds and GITHUB_TOKEN is the
    value of the environment variable GITHUB_TOKEN as it is at load time,
    passed through unchanged ([str] when set, whatever the string is, and
    [None] when unset: no default, no validation, no error).  With the
    variable set to "abc123" the constant is "abc123"; with the variable
    unset the constant is [None]. *)
Theorem token_is_environment_value :
  (∀ env : gmap string string, ∃ st,
      load env = Ok st ∧
      constant st "GITHUB_TOKEN" =
        Some (match env !! "GITHUB_TOKEN" with
              | Some s => VStr s
              | None => VNone
              end)) ∧
  (∀ (env : gmap string string) (s : string), ∃ st,
      load (<["GITHUB_TOKEN" := s]> env) = Ok st ∧
      constant st "GITHUB_TOKEN" = Some (VStr s)) ∧
  (∀ env : gmap string string, ∃ st,
      load (<["GITHUB_TOKEN" := "abc123"]> env) = Ok st ∧
      constant st "GITHUB_TOKEN" = Some (VStr "abc123")) ∧
  (∀ env : gmap string string, ∃ st,
      load (delete "GITHUB_TOKEN" env) = Ok st ∧
      constant st "GITHUB_TOKEN" = Some VNone).
Proof.
  repeat split; intros; eexists; (split; [apply load_run|]); unfold constant; simpl.
  - reflexivity.
  - by rewrite lookup_insert_eq.
  - by rewrite lookup_insert_eq.
  - by rewrite lookup_delete_eq.
Qed.

(** C9: with the variable unset the constant is [None], with the variable
    set to the empty string it is the empty [str]; the two are different
    values, so a client can tell "unset" from "empty". *)
Theorem unset_token_is_none_not_empty :
  ∀ env : gmap string string, ∃ st_unset st_empty,
    load (delete "GITHUB_TOKEN" env) = Ok st_unset ∧
    load (<["GITHUB_TOKEN" := ""]> env) = Ok st_empty ∧
    constant st_unset "GITHUB_TOKEN" = Some VNone ∧
    constant st_empty "GITHUB_TOKEN" = Some (VStr "") ∧
    constant st_unset "GITHUB_TOKEN" ≠ constant st_empty "GITHUB_TOKEN" ∧
    constant st_unset "GITHUB_TOKEN" ≠ None.
Proof.
  intros env. do 2 eexists.
  split; [apply load_run|]. split; [apply load_run|].
  unfold constant; simpl. rewrite lookup_delete_eq, lookup_insert_eq.
  repeat split; discriminate.
Qed.

(** ** The literal constants *)

(** C3: whatever the environment, the load succeeds, every constant but the
    token holds the literal of its assignment, the token holds the value of
    the environment variable ([None] when unset), and the namespace holds
    nothing else apart from the imported module [os]: thirteen names in
    all (the attributes Python itself gives every module, [__name__] and
    the like, are not part of the model). *)
Theorem constants_equal_declared_values :
  ∀ env : gmap string string, ∃ st,
    load env = Ok st ∧
    constant st "BRANCH_TO_MERGE_INTO" = Some (VStr "master") ∧
    constant st "BRANCH_TO_MERGE" = Some (VStr "staging") ∧
    constant st "GITHUB_URL" = Some (VStr "https://github.com/") ∧
    constant st "GITHUB_REPO" = Some (VStr "dante-signal31/steganer.git") ∧
    constant st "GITHUB_TOKEN" = Some (of_option (env !! "GITHUB_TOKEN")) ∧
    constant st "GIT_USERNAME" = Some (VStr "dante-signal31") ∧
    constant st "GIT_EMAIL" = Some (VStr "dante.signal31@gmail.com") ∧
    constant st "STEGANER_CONFIGURATION" = Some (VStr "Cargo.toml") ∧
    constant st "VERSION_PREFIX" = Some (VStr "") ∧
    constant st "BINTRAY_TEMPLATES_PATH" =
      Some (VStr "packaging/bintray_descriptor_templates") ∧
    constant st "BINTRAY_DESCRIPTORS_PATH" = Some (VStr "packaging/") ∧
    constant st "BINTRAY_DESCRIPTOR_NAME_FORMAT" =
      Some (VStr "steganer_{tag}_bintray_descriptor.json") ∧
    constant st "os" = Some (VModule "os") ∧
    size (globals st) = 13.
Proof.
  intros env. eexists. split; [apply load_run|].
  unfold constant; simpl. generalize (of_option (env !! "GITHUB_TOKEN")) as t.
  intros t. repeat split; reflexivity.
Qed.

(** C10: the version prefix is the empty string. *)
Theorem version_prefix_is_empty :
  ∀ env : gmap string string, ∃ st,
    load env = Ok st ∧
    constant st "VERSION_PREFIX" = Some (VStr "") ∧
    constant st "VERSION_PREFIX" = Some (VStr EmptyString).
Proof.
  intros env. eexists. split; [apply load_run|].
  unfold constant; simpl. split; reflexivity.
Qed.

(** ** The descriptor file name *)

(** Filling the one field of the format with any tag puts the tag between
    the fixed prefix and suffix. *)
Lemma descriptor_name_for_tag (tag : string) :
  str_format "steganer_{tag}_bintray_descriptor.json" {[ "tag" := tag ]}
  = Ok ("steganer_" +:+ tag +:+ "_bintray_descriptor.json").
Proof.
  unfold str_format. simpl. rewrite lookup_singleton_eq. reflexivity.
Qed.

(** The two path constants carry no replacement field. *)
Lemma paths_have_no_field :
  fields "packaging/bintray_descriptor_templates" = Ok [] ∧
  fields "packaging/" = Ok [].
Proof. split; reflexivity. Qed.

(** C2: filling the placeholder of BINTRAY_DESCRIPTOR_NAME_FORMAT with the
    tag "v1.2.3" gives "steganer_v1.2.3_bintray_descriptor.json". *)
Theorem descriptor_name_for_v1_2_3 :
  ∀ env : gmap string string, ∃ st fmt,
    load env = Ok st ∧
    constant st "BINTRAY_DESCRIPTOR_NAME_FORMAT" = Some (VStr fmt) ∧
    str_format fmt {[ "tag" := "v1.2.3" ]}
      = Ok "steganer_v1.2.3_bintray_descriptor.json".
Proof.
  intros env. do 2 eexists. split; [apply load_run|].
  split; [reflexivity|]. apply (descriptor_name_for_tag "v1.2.3").
Qed.

(** C4: the module defines the two path constants and the file name format
    as strings; the format has exactly one replacement field, named [tag],
    written [{tag}] once, and a caller that supplies a tag gets the name
    with the tag in its place. *)
Theorem descriptor_constants_and_placeholder :
  ∀ env : gmap string string, ∃ st templates descriptors fmt,
    load env = Ok st ∧
    constant st "BINTRAY_TEMPLATES_PATH" = Some (VStr templates) ∧
    constant st "BINTRAY_DESCRIPTORS_PATH" = Some (VStr descriptors) ∧
    constant st "BINTRAY_DESCRIPTOR_NAME_FORMAT" = Some (VStr fmt) ∧
    fields fmt = Ok ["tag"] ∧
    occurrences "{tag}" fmt = 1 ∧
    ∀ tag : string,
      str_format fmt {[ "tag" := tag ]}
        = Ok ("steganer_" +:+ tag +:+ "_bintray_descriptor.json").
Proof.
  intros env. do 4 eexists. split; [apply load_run|].
  repeat split; reflexivity.
Qed.

(** ** Totality *)

(** The exception branch of the monad is real: calling [os.getenv] in a
    namespace where [os] was never imported raises [NameError]. *)
Lemma getenv_without_import_raises env :
  (os ← load_name "os";
   getenv ← getattr os "getenv";
   call1 getenv "GITHUB_TOKEN") (fresh env) = Raise (NameError "os").
Proof. reflexivity. Qed.

(** C8: the body runs to completion from every state: a first load succeeds
    in every environment, so does a reload over any earlier namespace, and
    no exception is the outcome of either. *)
Theorem load_never_raises :
  (∀ st : state, ∃ st', ci_constants st = Ok (tt, st')) ∧
  (∀ env : gmap string string, ∃ st, load env = Ok st) ∧
  (∀ (env : gmap string string) (prev : state), ∃ st, reload env prev = Ok st) ∧
  (∀ (env : gmap string string) (e : exn), load env ≠ Raise e) ∧
  (∀ (env : gmap string string) (prev : state) (e : exn),
      reload env prev ≠ Raise e).
Proof.
  repeat split; intros.
  - eexists. apply ci_constants_run.
  - eexists. apply load_run.
  - eexists. apply reload_run.
  - rewrite load_run. discriminate.
  - rewrite reload_run. discriminate.
Qed.

(** ** What the load reads and writes *)

Lemma body_trace_env_events token :
  env_events (body_trace token) = [EnvRead "GITHUB_TOKEN"].
Proof. reflexivity. Qed.

Lemma body_trace_shape token e :
  e ∈ body_trace token →
  e = EnvRead "GITHUB_TOKEN" ∨ e = Import "os" ∨ ∃ n v, e = Store n v.
Proof.
  unfold body_trace; simpl. intros H.
  repeat (apply elem_of_cons in H as [-> | H]; [eauto |]).
  by apply elem_of_nil in H.
Qed.

(** C5: a load touches the environment exactly once, to read GITHUB_TOKEN;
    everything else it does is the import of [os] and stores into its own
    namespace; it leaves the environment as it found it; and two loads under
    environments that agree on GITHUB_TOKEN produce the same namespace and
    the same log, whatever else the environments hold. *)
Theorem load_depends_only_on_token (env env' : gmap string string) :
  env !! "GITHUB_TOKEN" = env' !! "GITHUB_TOKEN" →
  ∃ st st',
    load env = Ok st ∧ load env' = Ok st' ∧
    env_events (trace st) = [EnvRead "GITHUB_TOKEN"] ∧
    (∀ e, e ∈ trace st →
          e = EnvRead "GITHUB_TOKEN" ∨ e = Import "os" ∨ ∃ n v, e = Store n v) ∧
    environ st = env ∧ environ st' = env' ∧
    globals st = globals st' ∧
    (∀ name, constant st name = constant st' name) ∧
    trace st = trace st'.
Proof.
  intros Hagree. do 2 eexists.
  split; [apply load_run|]. split; [apply load_run|].
  cbn [trace globals environ]. rewrite <- Hagree.
  split; [apply body_trace_env_events|].
  split; [apply body_trace_shape|].
  repeat split; reflexivity.
Qed.

Lemma load_depends_only_on_token_witness :
  env_ci ≠ env_dev ∧
  ∃ st st',
    load env_ci = Ok st ∧ load env_dev = Ok st' ∧
    env_events (trace st) = [EnvRead "GITHUB_TOKEN"] ∧
    (∀ e, e ∈ trace st →
          e = EnvRead "GITHUB_TOKEN" ∨ e = Import "os" ∨ ∃ n v, e = Store n v) ∧
    environ st = env_ci ∧ environ st' = env_dev ∧
    globals st = globals st' ∧
    (∀ name, constant st name = constant st' name) ∧
    trace st = trace st'.
Proof.
  split.
  - intros H. apply (f_equal (λ m : gmap string string, m !! "HOME")) in H.
    vm_compute in H. discriminate.
  - apply (load_depends_only_on_token env_ci env_dev). reflexivity.
Defined.

(** ** Loading again *)

(** Once the body has run for a token value, running it again for the same
    value is the identity on the namespace, however often. *)
Lemma reloads_fixed (o : option string) envs st :
  body_globals (of_option o) (globals st) = globals st →
  Forall (λ e : gmap string string, e !! "GITHUB_TOKEN" = o) envs →
  ∃ st', reloads envs st = Ok st' ∧ globals st' = globals st.
Proof.
  intros Hfix Hall. revert st Hfix.
  induction Hall as [|e envs He _ IH]; intros st Hfix; simpl.
  - by exists st.
  - rewrite reload_run, He.
    destruct (IH (mkState e (body_globals (of_option o) (globals st))
                          (body_trace (of_option o)))) as (st' & Hrun & Hg).
    + cbn [globals]. apply body_globals_idem.
    + exists st'. split; [exact Hrun|]. rewrite Hg. cbn [globals]. exact Hfix.
Qed.

(** The proviso matters: a reload after the variable was removed rebinds
    the token. *)
Lemma reload_after_unset_changes_token :
  ∃ st st', load env_ci = Ok st ∧ reload env_bare st = Ok st' ∧
            constant st "GITHUB_TOKEN" = Some (VStr "abc123") ∧
            constant st' "GITHUB_TOKEN" = Some VNone.
Proof.
  do 2 eexists. split; [apply load_run|]. split; [apply reload_run|].
  split; reflexivity.
Qed.

(** C6: after a load, reloading the module any number of times, under
    environments in which GITHUB_TOKEN is what it was at the load, succeeds
    and leaves every constant with the value it had; a second fresh load
    under such an environment gives the same namespace too. *)
Theorem reloading_is_idempotent
    (env : gmap string string) (envs : list (gmap string string)) (st : state) :
  load env = Ok st →
  Forall (λ e : gmap string string,
            e !! "GITHUB_TOKEN" = env !! "GITHUB_TOKEN") envs →
  ∃ st',
    reloads envs st = Ok st' ∧
    globals st' = globals st ∧
    (∀ name, constant st' name = constant st name) ∧
    Forall (λ e, ∃ st'', load e = Ok st'' ∧ globals st'' = globals st) envs.
Proof.
  intros Hload Hall. rewrite load_run in Hload. injection Hload as <-.
  destruct (reloads_fixed (env !! "GITHUB_TOKEN") envs
              (mkState env (body_globals (of_option (env !! "GITHUB_TOKEN")) ∅)
                       (body_trace (of_option (env !! "GITHUB_TOKEN")))))
    as (st' & Hrun & Hg); [apply body_globals_idem | exact Hall |].
  exists st'. split; [exact Hrun|]. split; [exact Hg|].
  split; [intros name; unfold constant; by rewrite Hg|].
  eapply Forall_impl; [exact Hall|]. intros e He. cbn beta in He.
  eexists. split; [apply load_run|]. cbn [globals]. by rewrite He.
Qed.

Lemma reloading_is_idempotent_witness :
  ∃ st st',
    load env_ci = Ok st ∧
    reloads [env_dev; env_ci; env_dev] st = Ok st' ∧
    globals st' = globals st ∧
    (∀ name, constant st' name = constant st name) ∧
    Forall (λ e, ∃ st'', load e = Ok st'' ∧ globals st'' = globals st)
           [env_dev; env_ci; env_dev].
Proof.
  destruct (reloading_is_idempotent env_ci [env_dev; env_ci; env_dev] _
              (load_run env_ci)) as (st' & H1 & H2 & H3 & H4).
  { repeat constructor. }
  eexists. exists st'. split; [apply load_run|]. repeat split; assumption.
Defined.

(** ** One store per constant *)

Lemma body_globals_unbound token name :
  name ≠ "os" → name ∉ (bindings token).*1 →
  body_globals token ∅ !! name = None.
Proof.
  intros Hos Hnot. unfold body_globals. rewrite store_all_union.
  apply lookup_union_None. split.
  - apply not_elem_of_list_to_map. by rewrite fmap_reverse, elem_of_reverse.
  - by rewrite lookup_insert_ne, lookup_empty.
Qed.

Lemma stores_of_unbound token name :
  name ∉ (bindings token).*1 → stores_of name (body_trace token) = [].
Proof.
  intros Hnot. unfold stores_of, body_trace. cbn -[decide].
  repeat (rewrite (decide_False (P := _ = name));
          [| intros <-; apply Hnot; set_solver]).
  reflexivity.
Qed.

Lemma constant_names_assigned : assigned_names = constant_names.
Proof. reflexivity. Qed.

(** C7: during a load each of the twelve constants is stored exactly once,
    and afterwards it is bound to that one stored value; no other name is
    ever stored; and no value the module stores is callable, so the loaded
    module has no operation of its own that could rebind or change a
    constant after the load (the values themselves are strings and [None],
    which Python cannot change in place).  The only access to the
    environment is the one read of GITHUB_TOKEN. *)
Theorem constants_are_set_once :
  ∀ env : gmap string string, ∃ st,
    load env = Ok st ∧
    NoDup constant_names ∧ length constant_names = 12 ∧
    (∀ name, name ∈ constant_names →
       ∃ v, stores_of name (trace st) = [v] ∧
            constant st name = Some v ∧
            callable v = false) ∧
    (∀ name, name ∉ constant_names → stores_of name (trace st) = []) ∧
    (∀ name v, Store name v ∈ trace st → callable v = false) ∧
    env_events (trace st) = [EnvRead "GITHUB_TOKEN"].
Proof.
  intros env. eexists. split; [apply load_run|].
  unfold constant. cbn [globals trace].
  generalize (env !! "GITHUB_TOKEN") as o. intros o.
  split; [compute_done|]. split; [reflexivity|]. split; [|split; [|split]].
  - intros name Hin. unfold constant_names in Hin.
    by_names Hin; eexists; (split; [reflexivity|]);
      (split; [reflexivity|]); by destruct o.
  - intros name Hout. by apply stores_of_unbound.
  - intros name v H. unfold body_trace in H. cbn in H.
    repeat (apply elem_of_cons in H as [H | H];
            [first [discriminate H | injection H as -> ->; by destruct o] |]).
    by apply elem_of_nil in H.
  - reflexivity.
Qed.

(** ** The body over an arbitrary namespace *)

Lemma bindings_names token : (bindings token).*1 = assigned_names.
Proof. reflexivity. Qed.

(** The names left unbound by a fresh run are exactly those the body
    neither imports nor assigns. *)
Lemma body_globals_None token name :
  body_globals token ∅ !! name = None ↔ name ≠ "os" ∧ name ∉ assigned_names.
Proof.
  split.
  - intros H. split.
    + intros ->. discriminate H.
    + intros Hin. unfold assigned_names in Hin.
      by_names Hin; vm_compute in H; discriminate H.
  - intros [Hos Hout]. by apply body_globals_unbound.
Qed.

(** A later run hides an earlier one entirely. *)
Lemma body_globals_absorb token token' (g : gmap string value) :
  body_globals token' (body_globals token g) = body_globals token' g.
Proof.
  rewrite (body_globals_union token' (body_globals token g)).
  rewrite (body_globals_union token g), (body_globals_union token' g).
  apply map_eq. intros name. rewrite !lookup_union.
  destruct (body_globals token' ∅ !! name) as [v'|] eqn:H'.
  - by destruct (body_globals token ∅ !! name), (g !! name).
  - apply body_globals_None in H'. apply (body_globals_None token) in H'.
    rewrite H'. by destruct (g !! name).
Qed.

(** Away from the token, a fresh run binds the same value whatever the
    environment lookup returned. *)
Lemma body_globals_other token token' name :
  name ≠ "GITHUB_TOKEN" →
  body_globals token ∅ !! name = body_globals token' ∅ !! name.
Proof.
  intros Htok.
  destruct (decide (name = "os")) as [-> | Hos]; [reflexivity|].
  destruct (decide (name ∈ assigned_names)) as [Hin | Hout].
  - unfold assigned_names in Hin. by_names Hin; done.
  - transitivity (@None value); [|symmetry]; by apply body_globals_None.
Qed.

(** The log of a run, split around its one store of the token. *)
Lemma body_trace_split token :
  body_trace token =
    (take 6 (body_trace VNone) ++
     [Store "GITHUB_TOKEN" token] ++ drop 7 (body_trace VNone))%list.
Proof. reflexivity. Qed.

Lemma stores_of_app name l1 l2 :
  stores_of name (l1 ++ l2) = (stores_of name l1 ++ stores_of name l2)%list.
Proof. apply omap_app. Qed.

Lemma stores_of_other token token' name :
  name ≠ "GITHUB_TOKEN" →
  stores_of name (body_trace token) = stores_of name (body_trace token').
Proof.
  intros Htok. rewrite (body_trace_split token), (body_trace_split token').
  rewrite !stores_of_app. f_equal. f_equal.
  unfold stores_of. cbn -[decide].
  destruct (decide ("GITHUB_TOKEN" = name)); [congruence | reflexivity].
Qed.

(** X1: the environment reaches GITHUB_TOKEN and nothing else: under any two
    environments, however they differ (the token included), every other
    name of the module has the same value and the same stores in the log. *)
Theorem other_constants_ignore_environment :
  ∀ env env' : gmap string string, ∃ st st',
    load env = Ok st ∧ load env' = Ok st' ∧
    ∀ name, name ≠ "GITHUB_TOKEN" →
            constant st name = constant st' name ∧
            stores_of name (trace st) = stores_of name (trace st').
Proof.
  intros env env'. do 2 eexists.
  split; [apply load_run|]. split; [apply load_run|].
  intros name Htok. unfold constant. cbn [globals trace]. split.
  - by apply body_globals_other.
  - by apply stores_of_other.
Qed.

(** X2: run over any namespace that leaves the import machinery alone,
    and over any log, the body succeeds, leaves the environment alone,
    appends to the log exactly what a fresh load logs, gives every name it
    binds the value a fresh load gives it (whatever was bound before), and
    leaves every other name as it was. *)
Theorem body_over_intact_namespace (st : state) :
  builtins_intact (globals st) →
  ∃ st' st0,
    ci_constants st = Ok (tt, st') ∧
    load (environ st) = Ok st0 ∧
    environ st' = environ st ∧
    trace st' = (trace st ++ trace st0)%list ∧
    (∀ name, name = "os" ∨ name ∈ constant_names →
       is_Some (constant st0 name) ∧ constant st' name = constant st0 name) ∧
    (∀ name, name ≠ "os" → name ∉ constant_names →
       constant st' name = constant st name) ∧
    builtins_intact (globals st').
Proof.
  intros Hintact. do 2 eexists.
  split; [apply ci_constants_run|]. split; [apply load_run|].
  unfold constant. cbn [environ globals trace].
  set (token := of_option (environ st !! "GITHUB_TOKEN")).
  assert (Hframe : ∀ name, name ≠ "os" → name ∉ constant_names →
            body_globals token (globals st) !! name = globals st !! name).
  { intros name Hos Hout.
    rewrite body_globals_union, lookup_union.
    rewrite (proj2 (body_globals_None token name)) by done.
    by destruct (globals st !! name). }
  split; [reflexivity|]. split; [reflexivity|]. split; [|split].
  - intros name Hin.
    assert (Hsome : is_Some (body_globals token ∅ !! name)).
    { destruct (body_globals token ∅ !! name) eqn:H; [by eexists|].
      apply body_globals_None in H as [Hos Hout].
      by destruct Hin. }
    split; [exact Hsome|]. destruct Hsome as [v Hv].
    rewrite Hv. by apply body_globals_lookup.
  - exact Hframe.
  - unfold builtins_intact. rewrite Hframe; [exact Hintact | done | compute_done].
Qed.

Lemma body_over_intact_namespace_witness :
  builtins_intact (globals tampered) ∧
  ∃ st' st0,
    ci_constants tampered = Ok (tt, st') ∧
    load (environ tampered) = Ok st0 ∧
    environ st' = environ tampered ∧
    trace st' = (trace tampered ++ trace st0)%list ∧
    (∀ name, name = "os" ∨ name ∈ constant_names →
       is_Some (constant st0 name) ∧ constant st' name = constant st0 name) ∧
    (∀ name, name ≠ "os" → name ∉ constant_names →
       constant st' name = constant tampered name) ∧
    builtins_intact (globals st').
Proof.
  assert (H : builtins_intact (globals tampered)) by (left; reflexivity).
  split; [exact H | exact (body_over_intact_namespace tampered H)].
Defined.

(** For instance, a reload puts a rebound constant back and keeps an
    attribute that is not the module's. *)
Lemma reload_repairs_tampered :
  ∃ st, reload env_ci tampered = Ok st ∧
        constant tampered "GITHUB_URL" = Some (VStr "https://example.org/") ∧
        constant st "GITHUB_URL" = Some (VStr "https://github.com/") ∧
        constant st "__name__" = Some (VStr "ci_constants").
Proof. eexists. split; [apply reload_run|]. repeat split; reflexivity. Qed.

Lemma reloads_last envs e : ∀ st token,
  globals st = body_globals token ∅ →
  ∃ st', reloads (envs ++ [e]) st = Ok st' ∧
         environ st' = e ∧
         globals st' = body_globals (of_option (e !! "GITHUB_TOKEN")) ∅ ∧
         trace st' = body_trace (of_option (e !! "GITHUB_TOKEN")).
Proof.
  induction envs as [|e0 envs IH]; intros st token Hg; simpl.
  - rewrite reload_run. eexists. split; [reflexivity|].
    cbn [environ globals trace]. rewrite Hg, body_globals_absorb. done.
  - rewrite reload_run. eapply IH. cbn [globals].
    rewrite Hg. apply body_globals_absorb.
Qed.

(** X3: after a load and any number of reloads, under environments that may
    all differ, the module is as a fresh load under the environment of the
    last reload leaves it: same namespace, same log.  Earlier environments
    leave no trace. *)
Theorem reloads_equal_fresh_load :
  ∀ (env : gmap string string) (envs : list (gmap string string))
    (last : gmap string string),
  ∃ st st' st0,
    load env = Ok st ∧
    reloads (envs ++ [last]) st = Ok st' ∧
    load last = Ok st0 ∧
    environ st' = last ∧
    globals st' = globals st0 ∧
    trace st' = trace st0.
Proof.
  intros env envs last.
  destruct (reloads_last envs last
              (mkState env (body_globals (of_option (env !! "GITHUB_TOKEN")) ∅)
                       (body_trace (of_option (env !! "GITHUB_TOKEN"))))
              (of_option (env !! "GITHUB_TOKEN")))
    as (st' & Hrun & He & Hg & Ht); [reflexivity|].
  eexists. exists st'. eexists.
  split; [apply load_run|]. split; [exact Hrun|]. split; [apply load_run|].
  cbn [globals trace]. done.
Qed.

(** ** The names of the module *)

Lemma reloads_shape envs : ∀ st token,
  globals st = body_globals token ∅ →
  trace st = body_trace token →
  ∃ st' token', reloads envs st = Ok st' ∧
                globals st' = body_globals token' ∅ ∧
                trace st' = body_trace token'.
Proof.
  induction envs as [|e envs IH]; intros st token Hg Ht; simpl.
  - by exists st, token.
  - rewrite reload_run. eapply IH; cbn [globals trace]; [|reflexivity].
    rewrite Hg. apply body_globals_absorb.
Qed.

Lemma stores_of_bound token name :
  name ∈ constant_names → stores_of name (body_trace token) ≠ [].
Proof.
  intros Hin. unfold constant_names in Hin. by_names Hin; discriminate.
Qed.

(** X4: after a load and any reloads, whatever the environments, the module
    has bound [os] and its twelve constants; what it imports is [os] and
    nothing else; what it stores is those twelve names and nothing else.
    The assignment that the source keeps as a comment binds nothing:
    PACKAGING_POSTINSTALL_SCRIPT is never stored and is not an attribute of
    the module. *)
Theorem module_stores_exactly_its_names :
  ∀ (env : gmap string string) (envs : list (gmap string string)),
  ∃ st st',
    load env = Ok st ∧
    reloads envs st = Ok st' ∧
    constant st' "os" = Some (VModule "os") ∧
    (∀ name, name ∈ constant_names → is_Some (constant st' name)) ∧
    (∀ name, (stores_of name (trace st') ≠ []) ↔ (name ∈ constant_names)) ∧
    (∀ m, Import m ∈ trace st' ↔ m = "os") ∧
    "PACKAGING_POSTINSTALL_SCRIPT" ∉ constant_names ∧
    stores_of "PACKAGING_POSTINSTALL_SCRIPT" (trace st') = [] ∧
    constant st' "PACKAGING_POSTINSTALL_SCRIPT" = None.
Proof.
  intros env envs.
  destruct (reloads_shape envs
              (mkState env (body_globals (of_option (env !! "GITHUB_TOKEN")) ∅)
                       (body_trace (of_option (env !! "GITHUB_TOKEN"))))
              (of_option (env !! "GITHUB_TOKEN")))
    as (st' & token' & Hrun & Hg & Ht); [reflexivity | reflexivity |].
  eexists. exists st'. split; [apply load_run|]. split; [exact Hrun|].
  unfold constant. rewrite Hg, Ht.
  assert (Hpost : "PACKAGING_POSTINSTALL_SCRIPT" ∉ constant_names)
    by compute_done.
  split; [reflexivity|]. split; [|split; [|split; [|split; [|split]]]].
  - intros name Hin.
    destruct (body_globals token' ∅ !! name) eqn:H; [by eexists|].
    by apply body_globals_None in H as [_ Hout].
  - intros name. split.
    + intros Hne. destruct (decide (name ∈ constant_names)) as [|Hout]; [done|].
      by rewrite stores_of_unbound in Hne.
    + apply stores_of_bound.
  - intros m. split.
    + intros Hin. apply body_trace_shape in Hin as [H | [H | (n & v & H)]];
        [discriminate H | by injection H | discriminate H].
    + intros ->. apply list_elem_of_here.
  - exact Hpost.
  - by apply stores_of_unbound.
  - by apply body_globals_None.
Qed.

(** ** Descriptor names of different tags *)

Lemma length_append (s t : string) :
  String.length (s +:+ t) = String.length s + String.length t.
Proof. induction s as [|c s IH]; simpl; [reflexivity | by rewrite IH]. Qed.

Lemma append_inv_tail (s1 s2 t : string) : s1 +:+ t = s2 +:+ t → s1 = s2.
Proof.
  revert s2. induction s1 as [|c s1 IH]; intros [|d s2] H; simpl in H.
  - reflexivity.
  - apply (f_equal String.length) in H.
    rewrite !length_append in H. simpl in H. lia.
  - apply (f_equal String.length) in H.
    rewrite !length_append in H. simpl in H. lia.
  - injection H as -> H. f_equal. by apply IH.
Qed.

(** X5: the file name format keeps tags apart: filled with two different
    tags (by the substitution modelled above) it gives two different
    descriptor file names, whatever characters the tags hold. *)
Theorem descriptor_names_distinct
    (env : gmap string string) (tag1 tag2 : string) :
  tag1 ≠ tag2 →
  ∃ st fmt name1 name2,
    load env = Ok st ∧
    constant st "BINTRAY_DESCRIPTOR_NAME_FORMAT" = Some (VStr fmt) ∧
    str_format fmt {[ "tag" := tag1 ]} = Ok name1 ∧
    str_format fmt {[ "tag" := tag2 ]} = Ok name2 ∧
    name1 ≠ name2.
Proof.
  intros Hne. do 4 eexists. split; [apply load_run|].
  split; [reflexivity|].
  split; [apply descriptor_name_for_tag|].
  split; [apply descriptor_name_for_tag|].
  intros H. apply Hne.
  apply (inj (String.app "steganer_")) in H.
  by apply append_inv_tail in H.
Qed.

Lemma descriptor_names_distinct_witness :
  ∃ st fmt name1 name2,
    load env_ci = Ok st ∧
    constant st "BINTRAY_DESCRIPTOR_NAME_FORMAT" = Some (VStr fmt) ∧
    str_format fmt {[ "tag" := "v1.2.3" ]} = Ok name1 ∧
    str_format fmt {[ "tag" := "v1.2.4" ]} = Ok name2 ∧
    name1 ≠ name2.
Proof.
  apply (descriptor_names_distinct env_ci "v1.2.3" "v1.2.4"). discriminate.
Defined.
